(** * Authorization middleware and handler chains of main.go

    A shallow embedding of [main.go]: the three authorization middlewares
    written against [http.Handler], the [Middleware] slice style with
    [Chain], the [mux.MiddlewareFunc] style, and the [main_*] programs that
    compose them.

    Every Go function [func F(args) R] is embedded as [F : args -> Go R],
    where [Go] is a state-and-panic monad over the part of the world the
    program touches: the lines printed on standard output and the calls made
    on the response writer of the request being served. *)

From stdpp Require Import base strings list gmap.
From Stdlib Require Import ZArith Ascii String.

Local Open Scope string_scope.
Local Open Scope Z_scope.
Local Open Scope list_scope.

(** ** The Go runtime: values, state, panics *)

(** The HTTP request as the program reads it: the header fields (canonical
    key to the list of its values, as [http.Header]), and the route
    variables gorilla/mux stored in the request's context. *)
Record Request := mkRequest {
  Method : string;
  Path : string;
  Header : gmap string (list string);
  RouteVars : gmap string string;
}.

(** One call of [fmt.Println] on standard output: its argument. *)
Inductive Line :=
| Text (s : string)
| Dump (req : Request).

(** One call on the [http.ResponseWriter]. *)
Inductive RespEvent :=
| EvWriteHeader (code : Z)
| EvWrite (data : string).

Record World := mkWorld {
  stdout : list Line;
  response : list RespEvent;
}.

(** A value of type [any], as carried by a panic: what matters to the
    program is whether its dynamic type implements [error]. *)
Inductive any :=
| any_error (msg : string)
| any_string (s : string)
| any_int (n : Z).

Inductive Result (A : Type) :=
| Ok (a : A) (w : World)
| Panicked (v : any) (w : World).
Arguments Ok {A} a w.
Arguments Panicked {A} v w.

Definition Go (A : Type) : Type := World -> Result A.

#[global] Instance Go_ret : MRet Go := fun A a w => Ok a w.

#[global] Instance Go_bind : MBind Go := fun A B k c w =>
  match c w with
  | Ok a w' => k a w'
  | Panicked v w' => Panicked v w'
  end.

Definition panic {A} (v : any) : Go A := fun w => Panicked v w.

(** [defer func() { ... recover() ... }()] around [body], for a deferred
    function that calls [recover()] once and unconditionally: the deferred
    function runs when [body] returns or panics, [recover()] hands it the
    panic value ([None] when there is none) and stops the panic. *)
Definition defer_recover (deferred : option any -> Go unit) (body : Go unit)
  : Go unit := fun w =>
  match body w with
  | Ok _ w' => deferred None w'
  | Panicked v w' => deferred (Some v) w'
  end.

Definition implements_error (v : any) : bool :=
  match v with
  | any_error _ => true
  | any_string _ | any_int _ => false
  end.

(** The comma-ok type assertion [x.(error)] on an interface value, [None]
    being [nil]. *)
Definition assert_error (x : option any) : option any * bool :=
  match x with
  | Some v => if implements_error v then (Some v, true) else (None, false)
  | None => (None, false)
  end.

Definition quote : string := String (ascii_of_nat 34) EmptyString.
Definition newline : string := String (ascii_of_nat 10) EmptyString.

Module fmt.

Definition Println (x : Line) : Go unit := fun w =>
  Ok tt {| stdout := stdout w ++ [x]; response := response w |}.

(** [fmt.Fprintln(w, s)] on the response writer: one [Write] of the text
    followed by a newline. *)
Definition Fprintln (s : string) : Go unit := fun w =>
  Ok tt {| stdout := stdout w; response := response w ++ [EvWrite (s +:+ newline)] |}.

End fmt.

Module io.

Definition WriteString (s : string) : Go unit := fun w =>
  Ok tt {| stdout := stdout w; response := response w ++ [EvWrite s] |}.

End io.

(** ** net/http *)

Module http.

Definition StatusInternalServerError : Z := 500.
Definition StatusMethodNotAllowed : Z := 405.
Definition StatusNotFound : Z := 404.
Definition MethodGet : string := "GET".

Definition is_lower (c : ascii) : bool :=
  ((97 <=? nat_of_ascii c) && (nat_of_ascii c <=? 122))%nat.
Definition is_upper (c : ascii) : bool :=
  ((65 <=? nat_of_ascii c) && (nat_of_ascii c <=? 90))%nat.
Definition is_digit (c : ascii) : bool :=
  ((48 <=? nat_of_ascii c) && (nat_of_ascii c <=? 57))%nat.
Definition to_upper (c : ascii) : ascii :=
  if is_lower c then ascii_of_nat (nat_of_ascii c - 32) else c.
Definition to_lower (c : ascii) : ascii :=
  if is_upper c then ascii_of_nat (nat_of_ascii c + 32) else c.

Definition validHeaderFieldByte (c : ascii) : bool :=
  is_lower c || is_upper c || is_digit c
  || existsb (Ascii.eqb c) (list_ascii_of_string "!#$%&'*+-.^_`|~").

Fixpoint canonical_from (upper : bool) (s : string) : string :=
  match s with
  | EmptyString => EmptyString
  | String c s' =>
      String (if upper then to_upper c else to_lower c)
             (canonical_from (Ascii.eqb c "-") s')
  end.

(** [textproto.CanonicalMIMEHeaderKey]: first letter and letters after a
    hyphen in upper case, the others in lower case; a key with a byte
    that is not a header field byte is returned as it is. *)
Definition CanonicalMIMEHeaderKey (s : string) : string :=
  if forallb validHeaderFieldByte (list_ascii_of_string s)
  then canonical_from true s else s.

(** [Header.Get]: the first value of the canonical key, the empty string
    when there is none. *)
Definition Header_Get (h : gmap string (list string)) (key : string) : string :=
  match h !! CanonicalMIMEHeaderKey key with
  | Some (v :: _) => v
  | _ => EmptyString
  end.

Definition WriteHeader (code : Z) : Go unit := fun w =>
  Ok tt {| stdout := stdout w; response := response w ++ [EvWriteHeader code] |}.

(** [http.NotFound]: the status line and the error text. *)
Definition NotFound : Go unit := fun w =>
  Ok tt {| stdout := stdout w;
           response := response w
                       ++ [EvWriteHeader StatusNotFound;
                           EvWrite ("404 page not found" +:+ newline)] |}.

(** [func(http.ResponseWriter, *http.Request)]. The response writer handed
    down a chain is the same object throughout: it is the [response]
    field of the world. *)
Definition HandlerFunc : Type := Request -> Go unit.

(** The interface [http.Handler]. *)
Record Handler := mkHandler { ServeHTTP : Request -> Go unit }.

(** The conversion [http.HandlerFunc(f)], with the method
    [func (f HandlerFunc) ServeHTTP(w, r) { f(w, r) }]. *)
Definition HandlerFunc_Handler (f : HandlerFunc) : Handler :=
  {| ServeHTTP := f |}.

End http.

(** ** gorilla/mux *)

Module mux.

(** [mux.Vars(req)[name]]: a missing variable reads as the empty string. *)
Definition Vars (req : Request) (name : string) : string :=
  default EmptyString (RouteVars req !! name).

Definition MiddlewareFunc : Type := http.Handler -> Go http.Handler.

Record Route := mkRoute {
  template : string;
  handler : http.Handler;
  methods : list string;
}.

Record Router := mkRouter {
  routes : list Route;
  middlewares : list MiddlewareFunc;
}.

Definition NewRouter : Router := {| routes := []; middlewares := [] |}.

Definition Handle (r : Router) (tpl : string) (h : http.Handler) : Router :=
  {| routes := routes r ++ [mkRoute tpl h []]; middlewares := middlewares r |}.

Definition HandleFunc (r : Router) (tpl : string) (f : http.HandlerFunc) : Router :=
  Handle r tpl (http.HandlerFunc_Handler f).

(** [.Methods(ms...)] on the route just registered. *)
Definition Methods (r : Router) (ms : list string) : Router :=
  match List.rev (routes r) with
  | [] => r
  | rt :: before =>
      {| routes := List.rev before ++ [mkRoute (template rt) (handler rt) (methods rt ++ ms)];
         middlewares := middlewares r |}
  end.

Definition Use (r : Router) (mw : MiddlewareFunc) : Router :=
  {| routes := routes r; middlewares := middlewares r ++ [mw] |}.

(** What the router does with a matched route: it wraps the route's
    handler in the router's middlewares, from the last registered to the
    first, so that the first registered runs first. *)
Fixpoint wrap_all (mws : list MiddlewareFunc) (h : http.Handler) : Go http.Handler :=
  match mws with
  | [] => mret h
  | mw :: rest => inner ← wrap_all rest h; mw inner
  end.

Definition find_route (r : Router) (tpl : string) : option Route :=
  List.find (fun rt => String.eqb (template rt) tpl) (routes r).

(** Serving a request the router has matched to the route [rt], by its
    path and by its method. *)
Definition serve_route (r : Router) (rt : Route) (req : Request) : Go unit :=
  h ← wrap_all (middlewares r) (handler rt); http.ServeHTTP h req.

(** The method matcher of a route: a route on which [Methods] was not
    called takes every method. *)
Definition method_matches (rt : Route) (req : Request) : bool :=
  match methods rt with
  | [] => true
  | ms => existsb (String.eqb (Method req)) ms
  end.

(** [Router.ServeHTTP] on a request whose path matched the route [rt], in
    a router with one route for the path, as those of the program: when
    the method matches too, the route is served inside the middlewares;
    when it does not, the router answers [WriteHeader(405)] itself and
    applies no middleware. *)
Definition serve_path_matched (r : Router) (rt : Route) (req : Request) : Go unit :=
  if method_matches rt req then serve_route r rt req
  else http.WriteHeader http.StatusMethodNotAllowed.

End mux.

(** ** main.go *)

Definition AuthorizationMiddleware (next : http.Handler) : Go http.Handler :=
  mret (http.HandlerFunc_Handler (fun req =>
    let profile := http.Header_Get (Header req) "Authorization" in
    if (String.length profile =? 0)%nat then
      fmt.Println (Text "missing auth token");;
      http.WriteHeader 401
    else
      let tokenID := mux.Vars req "id" in
      if negb (String.eqb profile tokenID) then
        fmt.Println (Text "ownership not matched");;
        http.WriteHeader 401
      else
        http.ServeHTTP next req)).

Definition AuthorizationMiddleware_Bad (next : http.Handler) : Go http.Handler :=
  mret (http.HandlerFunc_Handler (fun req =>
    let profile := http.Header_Get (Header req) "Authorization" in
    if (String.length profile =? 0)%nat then
      fmt.Println (Text "missing auth token");;
      http.WriteHeader 401
    else
      let tokenID := mux.Vars req "id" in
      fmt.Println (Text ("tokenID: " +:+ tokenID));;
      http.ServeHTTP next req)).

Definition account_json : string :=
  "{" +:+ quote +:+ "message" +:+ quote +:+ ": "
      +:+ quote +:+ "hello world.." +:+ quote +:+ "}".

Definition GetAccount : http.HandlerFunc := fun req =>
  io.WriteString account_json.

(** The [main_*] programs up to where they hand the router to
    [http.ListenAndServe(":8000", router)]: they return the router that is
    served. ([http.Handle("/", router)] registers the router with the
    default mux, which the server started on [router] does not use.) *)
Definition main_bad : Go mux.Router :=
  fmt.Println (Text "running...");;
  let router := mux.NewRouter in
  let router := mux.Handle router "/account/{id}" (http.HandlerFunc_Handler GetAccount) in
  mret router.

Definition main_good : Go mux.Router :=
  fmt.Println (Text "running...");;
  let router := mux.NewRouter in
  h ← AuthorizationMiddleware (http.HandlerFunc_Handler GetAccount);
  let router := mux.Handle router "/account/{id}" h in
  mret router.

Definition main_bad2 : Go mux.Router :=
  fmt.Println (Text "running...");;
  let router := mux.NewRouter in
  h ← AuthorizationMiddleware_Bad (http.HandlerFunc_Handler GetAccount);
  let router := mux.Handle router "/account/{id}" h in
  mret router.

(** [type Middleware func(http.HandlerFunc) http.HandlerFunc] *)
Definition Middleware : Type := http.HandlerFunc -> Go http.HandlerFunc.

Definition LoggingFunc : Go Middleware :=
  mret (fun next => mret (fun req =>
    fmt.Println (Dump req);;
    defer_recover
      (fun recovered =>
         if (assert_error recovered).2
         then http.WriteHeader http.StatusInternalServerError
         else mret tt)
      (next req))).

Definition AuthFunc : Go Middleware :=
  mret (fun next => mret (fun req =>
    let profile := http.Header_Get (Header req) "Authorization" in
    if (String.length profile =? 0)%nat then
      fmt.Println (Text "missing auth token");;
      http.WriteHeader 401
    else
      let tokenID := mux.Vars req "id" in
      if negb (String.eqb profile tokenID) then
        fmt.Println (Text "ownership not matched");;
        http.WriteHeader 401
      else
        fmt.Println (Text ("tokenID: " +:+ tokenID));;
        next req)).

Definition SayHello : http.HandlerFunc := fun req =>
  fmt.Fprintln "Hello client".

Fixpoint Chain (f : http.HandlerFunc) (middlewares : list Middleware)
  : Go http.HandlerFunc :=
  match middlewares with
  | [] => mret f
  | m :: rest => f' ← m f; Chain f' rest
  end.

Definition main_chain : Go mux.Router :=
  let r := mux.NewRouter in
  a ← AuthFunc;
  l ← LoggingFunc;
  chain ← Chain SayHello [a; l];
  let r := mux.HandleFunc r "/account/{id}" chain in
  fmt.Println (Text "server listening: 8000");;
  mret r.

Definition MWAuthFunc (r : mux.Router) : Go mux.MiddlewareFunc :=
  mret (fun next => mret (http.HandlerFunc_Handler (fun req =>
    let profile := http.Header_Get (Header req) "Authorization" in
    if (String.length profile =? 0)%nat then
      fmt.Println (Text "missing auth token");;
      http.WriteHeader 401
    else
      let tokenID := mux.Vars req "id" in
      if negb (String.eqb profile tokenID) then
        fmt.Println (Text "ownership not matched");;
        http.WriteHeader 401
      else
        fmt.Println (Text ("tokenID: " +:+ tokenID));;
        http.ServeHTTP next req))).

Definition MWSayHello (r : mux.Router) : Go mux.MiddlewareFunc :=
  mret (fun next => mret (http.HandlerFunc_Handler (fun req =>
    fmt.Fprintln "Hello client";;
    http.ServeHTTP next req))).

Definition main_uses_chain : Go mux.Router :=
  let r := mux.NewRouter in
  let r := mux.Methods (mux.HandleFunc r "/account/{id}" SayHello) [http.MethodGet] in
  mw ← MWAuthFunc r;
  let r := mux.Use r mw in
  fmt.Println (Text "server listening: 8000");;
  mret r.

Definition main : Go mux.Router := main_uses_chain.

(** ** Invoking handlers, and the four authorization stages seen alike *)

(** Build a handler, then serve one request with it. *)
Definition serve (c : Go http.Handler) (req : Request) : Go unit :=
  h ← c; http.ServeHTTP h req.

Definition call (c : Go http.HandlerFunc) (req : Request) : Go unit :=
  f ← c; f req.

(** A stage: given the wrapped handler and a request, what happens. *)
Definition Stage : Type := http.HandlerFunc -> Request -> Go unit.

Definition stage_AuthorizationMiddleware : Stage := fun next req =>
  serve (AuthorizationMiddleware (http.HandlerFunc_Handler next)) req.

Definition stage_AuthorizationMiddleware_Bad : Stage := fun next req =>
  serve (AuthorizationMiddleware_Bad (http.HandlerFunc_Handler next)) req.

Definition stage_AuthFunc : Stage := fun next req =>
  m ← AuthFunc; call (m next) req.

Definition stage_MWAuthFunc (r : mux.Router) : Stage := fun next req =>
  m ← MWAuthFunc r; serve (m (http.HandlerFunc_Handler next)) req.

Definition stage_LoggingFunc : Stage := fun next req =>
  m ← LoggingFunc; call (m next) req.

Definition credential (req : Request) : string :=
  http.Header_Get (Header req) "Authorization".

Definition printed (l : Line) (w : World) : World :=
  {| stdout := stdout w ++ [l]; response := response w |}.

Definition wrote (e : RespEvent) (w : World) : World :=
  {| stdout := stdout w; response := response w ++ [e] |}.

(** The world after a stage refused a request with the message [msg]. *)
Definition refused (msg : string) (w : World) : World :=
  wrote (EvWriteHeader 401) (printed (Text msg) w).

(** The body the client receives: what the [Write] calls wrote, in order. *)
Fixpoint body_of (evs : list RespEvent) : string :=
  match evs with
  | [] => EmptyString
  | EvWriteHeader _ :: rest => body_of rest
  | EvWrite data :: rest => data +:+ body_of rest
  end.

(** ** Concrete requests *)

Definition w0 : World := {| stdout := []; response := [] |}.

Definition request (auth : list string) (id : option string) : Request :=
  {| Method := "GET"; Path := "/account/" +:+ default EmptyString id;
     Header := match auth with [] => ∅ | _ => {[ "Authorization" := auth ]} end;
     RouteVars := match id with None => ∅ | Some v => {[ "id" := v ]} end |}.

(** The decision of a stage on a request: refuse, leaving the world [w'],
    or hand the request to the wrapped handler in the world [w']. *)
Inductive Decision :=
| Refuse (w' : World)
| Pass (w' : World).

Definition enact (d : Decision) (next : http.HandlerFunc) (req : Request)
  : Result unit :=
  match d with
  | Refuse w' => Ok tt w'
  | Pass w' => next req w'
  end.

Definition decides (stage : Stage) (d : Decision) (req : Request) (w : World) : Prop :=
  forall next, stage next req w = enact d next req.

(** Two requests that differ in method, path and other header fields. *)
Definition req_get : Request :=
  {| Method := "GET"; Path := "/account/7";
     Header := {[ "Authorization" := ["7"] ]};
     RouteVars := {[ "id" := "7" ]} |}.

Definition req_post : Request :=
  {| Method := "POST"; Path := "/v2/account/7";
     Header := <[ "Accept" := ["*/*"] ]> {[ "Authorization" := ["7"; "8"] ]};
     RouteVars := <[ "version" := "v2" ]> {[ "id" := "7" ]} |}.

(** ** Middlewares built from closures, and the composition of the spec *)

(** A middleware whose body is [return func(w, req) { ... }]: applying it
    builds the closure and does nothing else. *)
Definition wrap (g : http.HandlerFunc -> http.HandlerFunc) : Middleware :=
  fun next => mret (g next).

(** A middleware that never calls [next]: it answers with [h]. *)
Definition short_circuiting (h : http.HandlerFunc) : Middleware :=
  wrap (fun _ => h).

(** A middleware that runs [pre] and then calls [next]. *)
Definition passing_through (pre : Request -> Go unit) : Middleware :=
  wrap (fun next req => pre req;; next req).

(** The composition as the specification words it:
    [result := terminal; for each m in reverse(middlewares): result := m(result)]. *)
Definition Compose_spec (terminal : http.HandlerFunc) (middlewares : list Middleware)
  : Go http.HandlerFunc :=
  fold_left (fun result m => result ≫= m) (rev middlewares) (mret terminal).

(** The request fails the check of [m]: whatever [m] wraps, it answers the
    request the same way, so it does not call the wrapped handler. *)
Definition fails_check (m : Middleware) (req : Request) : Prop :=
  forall next next' w, call (m next) req w = call (m next') req w.

(** The middlewares of [main_chain], as the values [AuthFunc()] and
    [LoggingFunc()] passed to [Chain]. *)
Definition auth_middleware : Middleware := fun next => m ← AuthFunc; m next.
Definition logging_middleware : Middleware := fun next => m ← LoggingFunc; m next.

(** ** The programs, up to serving one request *)

(** Run a [main_*] program, then serve a request matched to the route [tpl]. *)
Definition run_route (prog : Go mux.Router) (tpl : string) (req : Request) : Go unit :=
  r ← prog;
  match mux.find_route r tpl with
  | Some rt => mux.serve_route r rt req
  | None => panic (any_string "no such route")
  end.

(** The call on the response writer is the one and only of the request:
    the refusal, or the terminal handler's [output]. *)
Definition one_write (c : Go unit) (output : string) (w : World) : Prop :=
  exists w', c w = Ok tt w' /\
    (response w' = response w ++ [EvWriteHeader 401]
     \/ response w' = response w ++ [EvWrite output]).

(** ** The policy of the correct stages, and further views *)

(** The request carries a credential and it is the [id] of the route. *)
Definition authorized (req : Request) : bool :=
  negb (String.eqb (credential req) EmptyString)
  && String.eqb (credential req) (mux.Vars req "id").

(** The line a correct stage prints when it refuses the request. *)
Definition refusal (req : Request) : string :=
  if String.eqb (credential req) EmptyString
  then "missing auth token" else "ownership not matched".

Definition greeting : string := "Hello client" +:+ newline.

Definition stage_MWSayHello (r : mux.Router) : Stage := fun next req =>
  m ← MWSayHello r; serve (m (http.HandlerFunc_Handler next)) req.

(** The composition of [main_chain] around any terminal handler:
    [Chain(f, AuthFunc(), LoggingFunc())]. *)
Definition chain_of_main_chain (f : http.HandlerFunc) : Go http.HandlerFunc :=
  a ← AuthFunc; l ← LoggingFunc; Chain f [a; l].

(** The calls made on the response writer, when the handler returned. *)
Definition response_of (res : Result unit) : option (list RespEvent) :=
  match res with
  | Ok _ w => Some (response w)
  | Panicked _ _ => None
  end.

(** The pre-logics [pres] run one after the other on the request. *)
Fixpoint run_all (pres : list (Request -> Go unit)) (req : Request) : Go unit :=
  match pres with
  | [] => mret tt
  | pre :: rest => pre req;; run_all rest req
  end.

(** Run a [main_*] program, then serve a request whose path matches the
    route template [tpl]; the router checks the method. A path that matches
    no route is answered with [http.NotFound]. *)
Definition serve_request (prog : Go mux.Router) (tpl : string) (req : Request)
  : Go unit :=
  r ← prog;
  match mux.find_route r tpl with
  | Some rt => mux.serve_path_matched r rt req
  | None => http.NotFound
  end.

(** The stage hands the request it received on to [next]: what it does on
    a request depends on the wrapped handler only through what the wrapped
    handler does on that same request. *)
Definition keeps_request (g : Stage) : Prop :=
  forall req h1 h2,
    (forall w, h1 req w = h2 req w) -> forall w, g h1 req w = g h2 req w.

(** A stage that does not: it calls [next] on a request whose
    Authorization header it has set to the [id] of the route. *)
Definition forging : Stage := fun next req =>
  next {| Method := Method req; Path := Path req;
          Header := <[ "Authorization" := [mux.Vars req "id"] ]> (Header req);
          RouteVars := RouteVars req |}.

(** * Properties *)

Ltac go_unfold :=
  cbv [stage_AuthorizationMiddleware stage_AuthorizationMiddleware_Bad
       stage_AuthFunc stage_MWAuthFunc stage_LoggingFunc serve call
       AuthorizationMiddleware AuthorizationMiddleware_Bad AuthFunc
       MWAuthFunc LoggingFunc credential refused printed wrote
       http.ServeHTTP http.HandlerFunc_Handler http.WriteHeader
       fmt.Println fmt.Fprintln io.WriteString GetAccount SayHello
       mbind mret Go_bind Go_ret] in *.

Lemma length_eqb_0 (s : string) :
  (String.length s =? 0)%nat = bool_decide (s = EmptyString).
Proof. destruct s; reflexivity. Qed.

Lemma canonical_Authorization :
  http.CanonicalMIMEHeaderKey "Authorization" = "Authorization".
Proof. reflexivity. Qed.

(** An absent header field, and one with an empty list of values, read as
    the empty credential. *)
Lemma credential_absent (req : Request) :
  Header req !! "Authorization" = None \/ Header req !! "Authorization" = Some [] ->
  credential req = EmptyString.
Proof.
  unfold credential, http.Header_Get. rewrite canonical_Authorization.
  intros [-> | ->]; reflexivity.
Qed.

Section Stages.

Variables (next : http.HandlerFunc) (req : Request) (w : World).

(** *** The three paths of the stages, one equation each *)

Lemma AuthorizationMiddleware_missing :
  credential req = EmptyString ->
  stage_AuthorizationMiddleware next req w = Ok tt (refused "missing auth token" w).
Proof. intros H. go_unfold. rewrite H. reflexivity. Qed.

Lemma AuthorizationMiddleware_mismatch :
  credential req <> EmptyString -> credential req <> mux.Vars req "id" ->
  stage_AuthorizationMiddleware next req w = Ok tt (refused "ownership not matched" w).
Proof.
  intros Hne Hid. go_unfold. rewrite length_eqb_0, bool_decide_eq_false_2 by done.
  apply String.eqb_neq in Hid. rewrite Hid. reflexivity.
Qed.

Lemma AuthorizationMiddleware_match :
  credential req <> EmptyString -> credential req = mux.Vars req "id" ->
  stage_AuthorizationMiddleware next req w = next req w.
Proof.
  intros Hne Hid. go_unfold. rewrite length_eqb_0, bool_decide_eq_false_2 by done.
  apply String.eqb_eq in Hid. rewrite Hid. reflexivity.
Qed.

Lemma AuthorizationMiddleware_Bad_missing :
  credential req = EmptyString ->
  stage_AuthorizationMiddleware_Bad next req w = Ok tt (refused "missing auth token" w).
Proof. intros H. go_unfold. rewrite H. reflexivity. Qed.

Lemma AuthorizationMiddleware_Bad_present :
  credential req <> EmptyString ->
  stage_AuthorizationMiddleware_Bad next req w
  = next req (printed (Text ("tokenID: " +:+ mux.Vars req "id")) w).
Proof.
  intros Hne. go_unfold. rewrite length_eqb_0, bool_decide_eq_false_2 by done.
  reflexivity.
Qed.

Lemma AuthFunc_missing :
  credential req = EmptyString ->
  stage_AuthFunc next req w = Ok tt (refused "missing auth token" w).
Proof. intros H. go_unfold. rewrite H. reflexivity. Qed.

Lemma AuthFunc_mismatch :
  credential req <> EmptyString -> credential req <> mux.Vars req "id" ->
  stage_AuthFunc next req w = Ok tt (refused "ownership not matched" w).
Proof.
  intros Hne Hid. go_unfold. rewrite length_eqb_0, bool_decide_eq_false_2 by done.
  apply String.eqb_neq in Hid. rewrite Hid. reflexivity.
Qed.

Lemma AuthFunc_match :
  credential req <> EmptyString -> credential req = mux.Vars req "id" ->
  stage_AuthFunc next req w
  = next req (printed (Text ("tokenID: " +:+ mux.Vars req "id")) w).
Proof.
  intros Hne Hid. go_unfold. rewrite length_eqb_0, bool_decide_eq_false_2 by done.
  apply String.eqb_eq in Hid. rewrite Hid. reflexivity.
Qed.

Variable r : mux.Router.

Lemma MWAuthFunc_missing :
  credential req = EmptyString ->
  stage_MWAuthFunc r next req w = Ok tt (refused "missing auth token" w).
Proof. intros H. go_unfold. rewrite H. reflexivity. Qed.

Lemma MWAuthFunc_mismatch :
  credential req <> EmptyString -> credential req <> mux.Vars req "id" ->
  stage_MWAuthFunc r next req w = Ok tt (refused "ownership not matched" w).
Proof.
  intros Hne Hid. go_unfold. rewrite length_eqb_0, bool_decide_eq_false_2 by done.
  apply String.eqb_neq in Hid. rewrite Hid. reflexivity.
Qed.

Lemma MWAuthFunc_match :
  credential req <> EmptyString -> credential req = mux.Vars req "id" ->
  stage_MWAuthFunc r next req w
  = next req (printed (Text ("tokenID: " +:+ mux.Vars req "id")) w).
Proof.
  intros Hne Hid. go_unfold. rewrite length_eqb_0, bool_decide_eq_false_2 by done.
  apply String.eqb_eq in Hid. rewrite Hid. reflexivity.
Qed.

End Stages.

(** ** Rejection of requests without a credential *)

(** C3. When the Authorization header is absent or empty, each of the four
    authorization stages prints its message, calls [WriteHeader(401)] once
    and returns: the outcome is the same whatever the wrapped handler
    [next] is, so [next] is not invoked, and whatever the route variable
    [id] holds. *)
Theorem missing_credential_is_rejected
    (r : mux.Router) (next : http.HandlerFunc) (req : Request) (w : World) :
  credential req = EmptyString ->
  let rejected :=
    Ok tt {| stdout := stdout w ++ [Text "missing auth token"];
             response := response w ++ [EvWriteHeader 401] |} in
  stage_AuthorizationMiddleware next req w = rejected /\
  stage_AuthorizationMiddleware_Bad next req w = rejected /\
  stage_AuthFunc next req w = rejected /\
  stage_MWAuthFunc r next req w = rejected.
Proof.
  intros H rejected. repeat split.
  - apply AuthorizationMiddleware_missing, H.
  - apply AuthorizationMiddleware_Bad_missing, H.
  - apply AuthFunc_missing, H.
  - apply MWAuthFunc_missing, H.
Qed.

Lemma missing_credential_is_rejected_witness :
  let req := request [] (Some "123") in
  let rejected :=
    Ok tt {| stdout := [Text "missing auth token"]; response := [EvWriteHeader 401] |} in
  credential req = EmptyString /\
  stage_AuthorizationMiddleware SayHello req w0 = rejected /\
  stage_AuthorizationMiddleware_Bad SayHello req w0 = rejected /\
  stage_AuthFunc SayHello req w0 = rejected /\
  stage_MWAuthFunc mux.NewRouter SayHello req w0 = rejected.
Proof.
  split; [reflexivity |].
  apply (missing_credential_is_rejected
           mux.NewRouter SayHello (request [] (Some "123")) w0).
  reflexivity.
Defined.

(** ** Rejection of a credential that does not match *)

(** C4. When the Authorization header is not empty and differs from the
    route variable [id], each correct stage prints its message, calls
    [WriteHeader(401)] once, writes no body, and returns: the outcome does
    not depend on [next], which is not invoked. *)
Theorem mismatched_credential_is_rejected
    (r : mux.Router) (next : http.HandlerFunc) (req : Request) (w : World) :
  credential req <> EmptyString ->
  credential req <> mux.Vars req "id" ->
  let rejected :=
    Ok tt {| stdout := stdout w ++ [Text "ownership not matched"];
             response := response w ++ [EvWriteHeader 401] |} in
  (stage_AuthorizationMiddleware next req w = rejected /\
   stage_AuthFunc next req w = rejected /\
   stage_MWAuthFunc r next req w = rejected) /\
  body_of (response w ++ [EvWriteHeader 401]) = body_of (response w).
Proof.
  intros Hne Hid rejected. split; [repeat split |].
  - apply AuthorizationMiddleware_mismatch; assumption.
  - apply AuthFunc_mismatch; assumption.
  - apply MWAuthFunc_mismatch; assumption.
  - induction (response w) as [|[code|data] evs IH]; simpl; [reflexivity | exact IH |].
    rewrite IH. reflexivity.
Qed.

Lemma mismatched_credential_is_rejected_witness :
  let req := request ["123"] (Some "124") in
  let rejected :=
    Ok tt {| stdout := [Text "ownership not matched"]; response := [EvWriteHeader 401] |} in
  stage_AuthorizationMiddleware GetAccount req w0 = rejected /\
  stage_AuthFunc GetAccount req w0 = rejected /\
  stage_MWAuthFunc mux.NewRouter GetAccount req w0 = rejected.
Proof.
  apply (mismatched_credential_is_rejected
           mux.NewRouter GetAccount (request ["123"] (Some "124")) w0).
  - vm_compute. discriminate.
  - vm_compute. discriminate.
Defined.

(** ** The vacuous stage *)

(** C2. [AuthorizationMiddleware_Bad], given any non-empty Authorization
    header, reads the route variable [id], prints it, and hands the request
    to [next]: the header is never compared with [id], so [next] runs
    whether they are equal or not, and the stage itself writes nothing on
    the response. *)
Theorem AuthorizationMiddleware_Bad_is_vacuous
    (next : http.HandlerFunc) (req : Request) (w : World) :
  credential req <> EmptyString ->
  stage_AuthorizationMiddleware_Bad next req w
  = next req {| stdout := stdout w ++ [Text ("tokenID: " +:+ mux.Vars req "id")];
                response := response w |}.
Proof. apply AuthorizationMiddleware_Bad_present. Qed.

Lemma AuthorizationMiddleware_Bad_is_vacuous_witness :
  let req := request ["mallory"] (Some "alice") in
  credential req <> mux.Vars req "id" /\
  stage_AuthorizationMiddleware_Bad GetAccount req w0
  = Ok tt {| stdout := [Text "tokenID: alice"]; response := [EvWrite account_json] |}.
Proof.
  split; [vm_compute; discriminate |].
  apply (AuthorizationMiddleware_Bad_is_vacuous
           GetAccount (request ["mallory"] (Some "alice")) w0).
  vm_compute. discriminate.
Defined.

(** ** A matching credential *)

(** The payload of [GetAccount], byte by byte. *)
Lemma account_json_bytes :
  List.map nat_of_ascii (list_ascii_of_string account_json)
  = [123; 34; 109; 101; 115; 115; 97; 103; 101; 34; 58; 32; 34; 104; 101;
     108; 108; 111; 32; 119; 111; 114; 108; 100; 46; 46; 34; 125]%nat.
Proof. reflexivity. Qed.

(** A request without Authorization header and without route variable has
    a credential equal to its [id], both empty; the stages refuse it with
    401 and the terminal handler does not run. *)
Lemma empty_credential_equal_to_empty_id_is_refused :
  let req := request [] None in
  let rejected :=
    Ok tt {| stdout := [Text "missing auth token"]; response := [EvWriteHeader 401] |} in
  credential req = mux.Vars req "id" /\
  stage_AuthorizationMiddleware GetAccount req w0 = rejected /\
  stage_AuthFunc SayHello req w0 = rejected /\
  stage_MWAuthFunc mux.NewRouter SayHello req w0 = rejected /\
  stage_AuthorizationMiddleware GetAccount req w0 <> GetAccount req w0.
Proof. repeat split. vm_compute. discriminate. Qed.

(** C5, amended. When the Authorization header is not empty and equals the
    route variable [id], each correct stage hands the request to [next]
    once, having written nothing on the response ([AuthFunc] and
    [MWAuthFunc] print the [id] first); with the terminal handlers of the
    program, the response is exactly the terminal's single write: the JSON
    payload for [GetAccount], the greeting line for [SayHello]. *)
Theorem matching_credential_reaches_terminal
    (r : mux.Router) (next : http.HandlerFunc) (req : Request) (w : World) :
  credential req <> EmptyString ->
  credential req = mux.Vars req "id" ->
  let logged := stdout w ++ [Text ("tokenID: " +:+ mux.Vars req "id")] in
  (stage_AuthorizationMiddleware next req w = next req w /\
   stage_AuthFunc next req w
   = next req {| stdout := logged; response := response w |} /\
   stage_MWAuthFunc r next req w
   = next req {| stdout := logged; response := response w |}) /\
  (stage_AuthorizationMiddleware GetAccount req w
   = Ok tt {| stdout := stdout w;
              response := response w ++ [EvWrite account_json] |} /\
   stage_AuthFunc SayHello req w
   = Ok tt {| stdout := logged;
              response := response w ++ [EvWrite ("Hello client" +:+ newline)] |} /\
   stage_MWAuthFunc r SayHello req w
   = Ok tt {| stdout := logged;
              response := response w ++ [EvWrite ("Hello client" +:+ newline)] |}).
Proof.
  intros Hne Hid logged.
  assert (Hnext : forall next',
    stage_AuthorizationMiddleware next' req w = next' req w /\
    stage_AuthFunc next' req w
    = next' req {| stdout := logged; response := response w |} /\
    stage_MWAuthFunc r next' req w
    = next' req {| stdout := logged; response := response w |}).
  { intros next'. repeat split.
    - apply AuthorizationMiddleware_match; assumption.
    - apply AuthFunc_match; assumption.
    - apply MWAuthFunc_match; assumption. }
  split; [apply Hnext |].
  destruct (Hnext GetAccount) as (-> & _ & _).
  destruct (Hnext SayHello) as (_ & -> & ->).
  repeat split.
Qed.

Lemma matching_credential_reaches_terminal_witness :
  let req := request ["123"] (Some "123") in
  stage_AuthorizationMiddleware GetAccount req w0
  = Ok tt {| stdout := []; response := [EvWrite account_json] |} /\
  stage_AuthFunc SayHello req w0
  = Ok tt {| stdout := [Text "tokenID: 123"];
             response := [EvWrite ("Hello client" +:+ newline)] |} /\
  stage_MWAuthFunc mux.NewRouter SayHello req w0
  = Ok tt {| stdout := [Text "tokenID: 123"];
             response := [EvWrite ("Hello client" +:+ newline)] |}.
Proof.
  apply (matching_credential_reaches_terminal
           mux.NewRouter SayHello (request ["123"] (Some "123")) w0).
  - vm_compute. discriminate.
  - reflexivity.
Defined.

(** ** What the decision depends on *)

(** C10. Two requests with the same Authorization header value and the
    same route variable [id] get the same decision from each correct
    stage: both are refused with the same message and status, or both are
    handed to the wrapped handler, after the same output. *)
Theorem authorization_depends_only_on_credential_and_id
    (r : mux.Router) (req1 req2 : Request) (w : World) :
  credential req1 = credential req2 ->
  mux.Vars req1 "id" = mux.Vars req2 "id" ->
  (exists d, decides stage_AuthorizationMiddleware d req1 w
             /\ decides stage_AuthorizationMiddleware d req2 w) /\
  (exists d, decides stage_AuthFunc d req1 w /\ decides stage_AuthFunc d req2 w) /\
  (exists d, decides (stage_MWAuthFunc r) d req1 w
             /\ decides (stage_MWAuthFunc r) d req2 w).
Proof.
  intros Hcred Hid. unfold decides.
  destruct (decide (credential req1 = EmptyString)) as [He | Hne].
  - assert (He2 : credential req2 = EmptyString) by congruence.
    repeat split; exists (Refuse (refused "missing auth token" w));
      split; intros next; simpl.
    + apply AuthorizationMiddleware_missing, He.
    + apply AuthorizationMiddleware_missing, He2.
    + apply AuthFunc_missing, He.
    + apply AuthFunc_missing, He2.
    + apply MWAuthFunc_missing, He.
    + apply MWAuthFunc_missing, He2.
  - assert (Hne2 : credential req2 <> EmptyString) by congruence.
    destruct (decide (credential req1 = mux.Vars req1 "id")) as [Hm | Hm].
    + assert (Hm2 : credential req2 = mux.Vars req2 "id") by congruence.
      split; [| split].
      * exists (Pass w). split; intros next; simpl;
          apply AuthorizationMiddleware_match; assumption.
      * exists (Pass (printed (Text ("tokenID: " +:+ mux.Vars req1 "id")) w)).
        split; intros next; simpl; [| rewrite Hid];
          apply AuthFunc_match; assumption.
      * exists (Pass (printed (Text ("tokenID: " +:+ mux.Vars req1 "id")) w)).
        split; intros next; simpl; [| rewrite Hid];
          apply MWAuthFunc_match; assumption.
    + assert (Hm2 : credential req2 <> mux.Vars req2 "id") by congruence.
      repeat split; exists (Refuse (refused "ownership not matched" w));
        split; intros next; simpl.
      * apply AuthorizationMiddleware_mismatch; assumption.
      * apply AuthorizationMiddleware_mismatch; assumption.
      * apply AuthFunc_mismatch; assumption.
      * apply AuthFunc_mismatch; assumption.
      * apply MWAuthFunc_mismatch; assumption.
      * apply MWAuthFunc_mismatch; assumption.
Qed.

Lemma authorization_depends_only_on_credential_and_id_witness :
  req_get <> req_post /\
  exists d, decides stage_AuthFunc d req_get w0 /\ decides stage_AuthFunc d req_post w0.
Proof.
  split; [discriminate |].
  apply (authorization_depends_only_on_credential_and_id mux.NewRouter req_get req_post w0).
  - reflexivity.
  - reflexivity.
Defined.

(** ** Recovery in LoggingFunc *)

Lemma LoggingFunc_runs_next (next : http.HandlerFunc) (req : Request) (w : World) :
  stage_LoggingFunc next req w
  = match next req (printed (Dump req) w) with
    | Ok _ w1 => Ok tt w1
    | Panicked v w1 =>
        Ok tt (if implements_error v then wrote (EvWriteHeader 500) w1 else w1)
    end.
Proof.
  go_unfold. unfold defer_recover, assert_error.
  destruct (next req _) as [[] w1 | v w1]; [reflexivity |].
  destruct (implements_error v); reflexivity.
Qed.

(** C9. The handler built by [LoggingFunc] prints the request, runs [next],
    and recovers from any panic of [next]: it always returns normally. It
    calls [WriteHeader(500)] exactly when [next] panicked with a value whose
    dynamic type implements [error]; a panic with any other value is
    swallowed and nothing is written for it, and nothing is written either
    when [next] returns. *)
Theorem LoggingFunc_swallows_panics
    (next : http.HandlerFunc) (req : Request) (w : World) :
  let entry := {| stdout := stdout w ++ [Dump req]; response := response w |} in
  (exists w', stage_LoggingFunc next req w = Ok tt w') /\
  stage_LoggingFunc next req w
  = match next req entry with
    | Ok _ w1 => Ok tt w1
    | Panicked v w1 =>
        Ok tt (if implements_error v
               then {| stdout := stdout w1;
                       response := response w1 ++ [EvWriteHeader 500] |}
               else w1)
    end.
Proof.
  intros entry. split; [| apply LoggingFunc_runs_next].
  rewrite LoggingFunc_runs_next.
  destruct (next req (printed (Dump req) w)) as [u w1 | v w1];
    eexists; reflexivity.
Qed.

(** A wrapped handler that writes a body and then panics, with an [error]
    and with a string. *)
Example LoggingFunc_on_error_panic :
  stage_LoggingFunc (fun req => io.WriteString "partial";; panic (any_error "boom"))
                    (request [] None) w0
  = Ok tt {| stdout := [Dump (request [] None)];
             response := [EvWrite "partial"; EvWriteHeader 500] |}.
Proof. reflexivity. Qed.

Example LoggingFunc_on_string_panic :
  stage_LoggingFunc (fun req => io.WriteString "partial";; panic (any_string "boom"))
                    (request [] None) w0
  = Ok tt {| stdout := [Dump (request [] None)]; response := [EvWrite "partial"] |}.
Proof. reflexivity. Qed.

(** ** Chain *)

Lemma Chain_app (f : http.HandlerFunc) (ms ms' : list Middleware) (w : World) :
  Chain f (ms ++ ms') w = (Chain f ms ≫= fun f' => Chain f' ms') w.
Proof.
  revert f w. induction ms as [| m ms IH]; intros f w; [reflexivity |].
  cbn [Chain app]. unfold mbind, Go_bind in *.
  destruct (m f w) as [f' w' | v w']; [apply IH | reflexivity].
Qed.

Lemma Chain_wrap (f : http.HandlerFunc)
    (gs : list (http.HandlerFunc -> http.HandlerFunc)) (w : World) :
  Chain f (List.map wrap gs) w = Ok (fold_left (fun h g => g h) gs f) w.
Proof.
  revert f. induction gs as [| g gs IH]; intros f; [reflexivity |].
  cbn [Chain List.map fold_left]. unfold mbind, Go_bind, wrap at 1, mret, Go_ret.
  apply IH.
Qed.

Lemma fold_left_bind (ms : list Middleware) (c : Go http.HandlerFunc) (w : World) :
  fold_left (fun result m => result ≫= m) ms c w
  = (c ≫= fun f => Chain f ms) w.
Proof.
  revert c. induction ms as [| m ms IH]; intros c.
  - cbn. unfold mbind, Go_bind, mret, Go_ret. destruct (c w); reflexivity.
  - cbn [fold_left Chain]. rewrite IH. unfold mbind, Go_bind.
    destruct (c w) as [f w' | v w']; reflexivity.
Qed.

Lemma run_all_app (l l' : list (Request -> Go unit)) (req : Request)
    (k : Go unit) (w : World) :
  (run_all (l ++ l') req;; k) w = (run_all l req;; (run_all l' req;; k)) w.
Proof.
  revert w. induction l as [| pre l IH]; intros w; [reflexivity |].
  specialize (IH). cbn [run_all app]. unfold mbind, Go_bind in *.
  destruct (pre req w) as [[] w1 | v w1]; [apply IH | reflexivity].
Qed.

Lemma call_Chain_passing_through
    (f : http.HandlerFunc) (pres : list (Request -> Go unit))
    (req : Request) (w : World) :
  call (Chain f (List.map passing_through pres)) req w
  = (run_all (List.rev pres) req;; f req) w.
Proof.
  revert f w. induction pres as [| pre pres IH]; intros f w; [reflexivity |].
  change (call (Chain f (List.map passing_through (pre :: pres))) req w)
    with (call (Chain (fun req' => pre req';; f req')
                      (List.map passing_through pres)) req w).
  rewrite IH. cbn [List.rev]. rewrite run_all_app.
  unfold mbind, Go_bind.
  destruct (run_all (List.rev pres) req w) as [[] w1 | v w1]; [| reflexivity].
  cbn [run_all]. unfold mbind, Go_bind, mret, Go_ret.
  destruct (pre req w1) as [[] w2 | v w2]; reflexivity.
Qed.

(** The specification's composition on the sample fixtures: [M1] refuses
    with 401 whatever it wraps, [M2] prints a line and passes through.
    [Chain] runs [M2] before [M1] refuses in the order [M1, M2], where the
    specification's composition refuses at once; in the order [M2, M1] it
    is [Chain] that refuses at once. *)
Lemma Chain_differs_from_reverse_fold :
  let M1 := short_circuiting (fun _ => http.WriteHeader 401) in
  let M2 := passing_through (fun _ => fmt.Println (Text "M2")) in
  let req := request [] None in
  call (Chain SayHello [M1; M2]) req w0
  = Ok tt {| stdout := [Text "M2"]; response := [EvWriteHeader 401] |} /\
  call (Compose_spec SayHello [M1; M2]) req w0
  = Ok tt {| stdout := []; response := [EvWriteHeader 401] |} /\
  call (Chain SayHello [M2; M1]) req w0
  = Ok tt {| stdout := []; response := [EvWriteHeader 401] |} /\
  call (Compose_spec SayHello [M2; M1]) req w0
  = Ok tt {| stdout := [Text "M2"]; response := [EvWriteHeader 401] |} /\
  call (Chain SayHello [M1; M2]) req w0 <> call (Compose_spec SayHello [M1; M2]) req w0.
Proof. repeat split. discriminate. Qed.

(** C1, amended. [Chain(terminal, middlewares)] folds the list over the
    terminal in list order ([result := terminal; for each m in middlewares:
    result := m(result)]), so the last middleware of the list is the
    outermost wrapper, whose pre-logic runs first. For [M1] that always
    short-circuits with a handler [h] and [M2] that always runs [pre] and
    passes through, [Chain(terminal, [M1, M2])] runs [pre] and then [h],
    never the terminal, and [Chain(terminal, [M2, M1])] runs [h] alone:
    neither [M2] nor the terminal runs. *)
Theorem Chain_folds_in_list_order :
  (forall f ms w,
     Chain f ms w = fold_left (fun result m => result ≫= m) ms (mret f) w) /\
  (forall f ms m w, Chain f (ms ++ [m]) w = (Chain f ms ≫= m) w) /\
  (forall f h pre req w,
     call (Chain f [short_circuiting h; passing_through pre]) req w
     = (pre req;; h req) w /\
     call (Chain f [passing_through pre; short_circuiting h]) req w = h req w).
Proof.
  split; [| split].
  - intros f ms w. rewrite fold_left_bind. reflexivity.
  - intros f ms m w. rewrite Chain_app. unfold mbind, Go_bind.
    destruct (Chain f ms w) as [f' w' | v w']; [| reflexivity].
    cbn [Chain]. unfold mbind, Go_bind, mret, Go_ret.
    destruct (m f' w'); reflexivity.
  - intros f h pre req w. split; reflexivity.
Qed.

(** ** Short-circuit *)

Lemma auth_middleware_fails_without_credential (req : Request) :
  credential req = EmptyString -> fails_check auth_middleware req.
Proof.
  intros H next next' w.
  exact (eq_trans (AuthFunc_missing next req w H)
                  (eq_sym (AuthFunc_missing next' req w H))).
Qed.

(** In [Chain(SayHello, AuthFunc(), LoggingFunc())] a request without
    credential fails the check of the first middleware, and the later
    middleware of the list runs all the same: its dump of the request is
    on standard output, before the refusal. *)
Lemma later_middleware_runs_before_first_refuses :
  let req := request [] (Some "123") in
  fails_check auth_middleware req /\
  call (Chain SayHello [auth_middleware; logging_middleware]) req w0
  = Ok tt {| stdout := [Dump req; Text "missing auth token"];
             response := [EvWriteHeader 401] |} /\
  call (Chain SayHello [auth_middleware]) req w0
  = Ok tt {| stdout := [Text "missing auth token"];
             response := [EvWriteHeader 401] |} /\
  call (Chain SayHello [auth_middleware; logging_middleware]) req w0
  <> call (Chain SayHello [auth_middleware]) req w0.
Proof.
  split; [apply auth_middleware_fails_without_credential; reflexivity |].
  split; [reflexivity |]. split; [reflexivity |].
  intros H.
  apply (f_equal (fun res => match res with
                             | Ok _ w => List.length (stdout w)
                             | Panicked _ _ => O
                             end)) in H.
  discriminate H.
Qed.

Lemma auth_middleware_closure :
  auth_middleware = wrap stage_AuthFunc
  /\ logging_middleware = wrap stage_LoggingFunc.
Proof. split; reflexivity. Qed.

Lemma LoggingFunc_keeps_request : keeps_request stage_LoggingFunc.
Proof.
  intros req h1 h2 H w. rewrite !LoggingFunc_runs_next, H. reflexivity.
Qed.

Lemma passing_through_keeps_request (pre : Request -> Go unit) :
  keeps_request (fun next req => pre req;; next req).
Proof.
  intros req h1 h2 H w. unfold mbind, Go_bind.
  destruct (pre req w) as [[] w1 | v w1]; [apply H | reflexivity].
Qed.

Lemma fold_keeps_request (later : list Stage) (req : Request)
    (h1 h2 : http.HandlerFunc) :
  Forall keeps_request later ->
  (forall w, h1 req w = h2 req w) ->
  forall w, fold_left (fun h g => g h) later h1 req w
            = fold_left (fun h g => g h) later h2 req w.
Proof.
  intros Hlater. revert h1 h2.
  induction Hlater as [| g later Hg _ IH]; intros h1 h2 H w; [apply H |].
  cbn [fold_left]. apply IH. intros w1. apply Hg, H.
Qed.

(** The proviso on the later middlewares is needed: a later middleware
    that sets the Authorization header before calling [next] lets a
    request that fails the check of the first middleware reach the
    terminal handler. *)
Lemma request_rewriting_middleware_reaches_terminal :
  let req := request [] (Some "123") in
  fails_check auth_middleware req /\
  call (Chain SayHello [auth_middleware; wrap forging]) req w0
  = Ok tt {| stdout := [Text "tokenID: 123"]; response := [EvWrite greeting] |} /\
  ~ keeps_request forging.
Proof.
  split; [apply auth_middleware_fails_without_credential; reflexivity |].
  split; [reflexivity |].
  intros Hkeeps.
  specialize (Hkeeps (request [] (Some "123"))
    (fun r : Request => if String.eqb (credential r) EmptyString
                        then (mret tt : Go unit) else io.WriteString "seen")
    (fun _ : Request => (mret tt : Go unit)) (fun _ => eq_refl) w0).
  discriminate Hkeeps.
Qed.

(** C6, amended. Take a list of middlewares and in it a stage [g] whose
    check the request fails, the first of the list or any other, followed
    by later middlewares that hand the request on to [next]. Invoking the
    composed handler runs neither the terminal handler nor any middleware
    earlier in the list than [g]: the outcome is that of [g] inside the
    later middlewares, whatever the terminal [f] and the earlier
    middlewares [ms] are. A stage that does not call [next] ends the chain
    and nothing it wraps runs. The later middlewares are not skipped: they
    wrap [g], and when they are pass-through their pre-logics run, from the
    last to the first, before [g] refuses. ([w'] is the world in which the
    earlier middlewares have been applied.) *)
Theorem failing_stage_cuts_off_what_it_wraps
    (f f' inner : http.HandlerFunc) (ms : list Middleware) (g : Stage)
    (later : list Stage) (req : Request) (w w' : World) :
  Chain f ms w = Ok inner w' ->
  fails_check (wrap g) req ->
  Forall keeps_request later ->
  call (Chain f (ms ++ wrap g :: List.map wrap later)) req w
  = call (Chain f' (wrap g :: List.map wrap later)) req w' /\
  (forall pres,
     call (Chain f (ms ++ wrap g :: List.map passing_through pres)) req w
     = (run_all (List.rev pres) req;; g f' req) w').
Proof.
  intros Hms Hfail Hlater.
  assert (Hg : forall w1, g inner req w1 = g f' req w1)
    by (intros w1; exact (Hfail inner f' w1)).
  assert (Hcut : forall rest,
    call (Chain f (ms ++ wrap g :: rest)) req w
    = call (Chain (g inner) rest) req w').
  { intros rest. unfold call at 1. unfold mbind at 1, Go_bind at 1.
    rewrite Chain_app. unfold mbind at 1, Go_bind at 1. rewrite Hms.
    reflexivity. }
  split.
  - rewrite Hcut.
    change (call (Chain f' (wrap g :: List.map wrap later)) req w')
      with (call (Chain (g f') (List.map wrap later)) req w').
    unfold call, mbind, Go_bind. rewrite !Chain_wrap.
    apply fold_keeps_request; assumption.
  - intros pres. rewrite Hcut, call_Chain_passing_through.
    unfold mbind, Go_bind.
    destruct (run_all (List.rev pres) req w') as [[] w1 | v w1];
      [apply Hg | reflexivity].
Qed.

(** The list of [main_chain]: a request without credential fails the check
    of [AuthFunc], the first middleware, and [LoggingFunc] hands the request
    on; the terminal handler does not run, whichever it is. *)
Lemma failing_stage_cuts_off_what_it_wraps_witness :
  let req := request [] (Some "123") in
  call (Chain SayHello [auth_middleware; logging_middleware]) req w0
  = call (Chain GetAccount [auth_middleware; logging_middleware]) req w0.
Proof.
  refine (proj1 (failing_stage_cuts_off_what_it_wraps
                   SayHello GetAccount SayHello [] stage_AuthFunc
                   [stage_LoggingFunc] (request [] (Some "123")) w0 w0 _ _ _)).
  - reflexivity.
  - apply auth_middleware_fails_without_credential. reflexivity.
  - constructor; [apply LoggingFunc_keeps_request | constructor].
Defined.

(** ** Composition time *)

(** C7. [Chain] on an empty list of middlewares returns the terminal
    handler itself, and composing touches neither standard output nor the
    response: for middlewares that build a closure, as all those of the
    program do, [Chain] returns the composed handler in an unchanged world,
    and so does the composition of [main_chain]. *)
Theorem Chain_nil_is_identity :
  (forall f w, Chain f [] w = Ok f w) /\
  (forall f gs w,
     Chain f (List.map wrap gs) w = Ok (fold_left (fun h g => g h) gs f) w) /\
  (forall w, exists a l chain,
     AuthFunc w = Ok a w /\ LoggingFunc w = Ok l w /\
     Chain SayHello [a; l] w = Ok chain w).
Proof.
  split; [reflexivity |]. split; [apply Chain_wrap |].
  intros w. do 3 eexists. repeat split.
Qed.

(** ** One write per request *)

(** Not every composition writes once: [MWSayHello] around [SayHello]
    greets twice. *)
Example MWSayHello_around_SayHello_writes_twice :
  (mw ← MWSayHello mux.NewRouter;
   serve (mw (http.HandlerFunc_Handler SayHello)) (request ["1"] (Some "1"))) w0
  = Ok tt {| stdout := [];
             response := [EvWrite ("Hello client" +:+ newline);
                          EvWrite ("Hello client" +:+ newline)] |}.
Proof. reflexivity. Qed.

Lemma main_bad_serves (req : Request) (w : World) :
  run_route main_bad "/account/{id}" req w
  = GetAccount req (printed (Text "running...") w).
Proof. reflexivity. Qed.

Lemma main_good_serves (req : Request) (w : World) :
  run_route main_good "/account/{id}" req w
  = stage_AuthorizationMiddleware GetAccount req (printed (Text "running...") w).
Proof. reflexivity. Qed.

Lemma main_bad2_serves (req : Request) (w : World) :
  run_route main_bad2 "/account/{id}" req w
  = stage_AuthorizationMiddleware_Bad GetAccount req (printed (Text "running...") w).
Proof. reflexivity. Qed.

Lemma main_chain_serves (req : Request) (w : World) :
  run_route main_chain "/account/{id}" req w
  = stage_LoggingFunc (stage_AuthFunc SayHello) req
      (printed (Text "server listening: 8000") w).
Proof. reflexivity. Qed.

Lemma main_uses_chain_serves (req : Request) (w : World) :
  run_route main_uses_chain "/account/{id}" req w
  = stage_MWAuthFunc mux.NewRouter SayHello req
      (printed (Text "server listening: 8000") w).
Proof. reflexivity. Qed.

Ltac one_write_of H :=
  rewrite H by assumption; eexists; split; [reflexivity |]; cbn; auto.

(** C8. Serving a request with the handler each [main_*] program registers
    for [/account/{id}] makes exactly one call on the response writer: the
    [WriteHeader(401)] of the authorization stage, which then returns
    without calling [next], or the single body write of the terminal
    handler. No stage writes after another has written. *)
Theorem sample_handlers_write_once (req : Request) (w : World) :
  one_write (run_route main_bad "/account/{id}" req) account_json w /\
  one_write (run_route main_good "/account/{id}" req) account_json w /\
  one_write (run_route main_bad2 "/account/{id}" req) account_json w /\
  one_write (run_route main_chain "/account/{id}" req)
            ("Hello client" +:+ newline) w /\
  one_write (run_route main_uses_chain "/account/{id}" req)
            ("Hello client" +:+ newline) w.
Proof.
  unfold one_write.
  rewrite main_bad_serves, main_good_serves, main_bad2_serves,
    main_chain_serves, main_uses_chain_serves, LoggingFunc_runs_next.
  split; [eexists; split; [reflexivity |]; cbn; auto |].
  destruct (decide (credential req = EmptyString)) as [He | Hne].
  - repeat split.
    + one_write_of (AuthorizationMiddleware_missing GetAccount req).
    + one_write_of (AuthorizationMiddleware_Bad_missing GetAccount req).
    + one_write_of (AuthFunc_missing SayHello req).
    + one_write_of (MWAuthFunc_missing SayHello req).
  - split; [| split; [one_write_of (AuthorizationMiddleware_Bad_present GetAccount req) |]].
    + destruct (decide (credential req = mux.Vars req "id")) as [Hm | Hm].
      * one_write_of (AuthorizationMiddleware_match GetAccount req).
      * one_write_of (AuthorizationMiddleware_mismatch GetAccount req).
    + destruct (decide (credential req = mux.Vars req "id")) as [Hm | Hm].
      * split; [one_write_of (AuthFunc_match SayHello req)
               | one_write_of (MWAuthFunc_match SayHello req)].
      * split; [one_write_of (AuthFunc_mismatch SayHello req)
               | one_write_of (MWAuthFunc_mismatch SayHello req)].
Qed.

(** * Further properties of the code *)

Lemma authorized_cases (req : Request) :
  (credential req = EmptyString /\ authorized req = false
   /\ refusal req = "missing auth token") \/
  (credential req <> EmptyString /\ credential req <> mux.Vars req "id"
   /\ authorized req = false /\ refusal req = "ownership not matched") \/
  (credential req <> EmptyString /\ credential req = mux.Vars req "id"
   /\ authorized req = true).
Proof.
  unfold authorized, refusal.
  destruct (String.eqb_spec (credential req) EmptyString) as [He | Hne];
    [left; auto |].
  destruct (String.eqb_spec (credential req) (mux.Vars req "id")) as [Hm | Hm];
    [right; right | right; left]; auto.
Qed.

(** ** Chain as an operation on lists *)

(** X1. Chaining the concatenation of two lists of middlewares is chaining
    the first list and then chaining the second list over the result. *)
Theorem Chain_of_concatenation
    (f : http.HandlerFunc) (ms ms' : list Middleware) (w : World) :
  Chain f (ms ++ ms') w = (f' ← Chain f ms; Chain f' ms') w.
Proof. apply Chain_app. Qed.

(** X2. For middlewares that run a pre-logic and pass through, the handler
    composed by [Chain] runs the pre-logics from the last of the list to
    the first, and then the terminal handler: the chain executes from right
    to left. *)
Theorem Chain_runs_right_to_left
    (f : http.HandlerFunc) (pres : list (Request -> Go unit))
    (req : Request) (w : World) :
  call (Chain f (List.map passing_through pres)) req w
  = (run_all (List.rev pres) req;; f req) w.
Proof. apply call_Chain_passing_through. Qed.

(** X3. When the application of a middleware panics while [Chain]
    composes, [Chain] panics with the same value in the same world, and
    the middlewares after it in the list are not applied. *)
Theorem Chain_stops_at_panicking_middleware
    (f inner : http.HandlerFunc) (ms after : list Middleware) (m : Middleware)
    (v : any) (w w1 w2 : World) :
  Chain f ms w = Ok inner w1 ->
  m inner w1 = Panicked v w2 ->
  Chain f (ms ++ m :: after) w = Panicked v w2.
Proof.
  intros Hms Hm. rewrite Chain_app. unfold mbind at 1, Go_bind at 1.
  rewrite Hms. cbn [Chain]. unfold mbind, Go_bind. rewrite Hm. reflexivity.
Qed.

Lemma Chain_stops_at_panicking_middleware_witness :
  Chain SayHello
        ([auth_middleware]
         ++ (fun _ => panic (any_string "no handler")) :: [logging_middleware]) w0
  = Panicked (any_string "no handler") w0.
Proof.
  eapply (Chain_stops_at_panicking_middleware SayHello _ [auth_middleware]
            [logging_middleware] (fun _ => panic (any_string "no handler"))
            (any_string "no handler") w0 w0 w0).
  - reflexivity.
  - reflexivity.
Defined.

(** ** The chain of main_chain around any terminal handler *)

(** X4. [Chain(f, AuthFunc(), LoggingFunc())] never panics, whatever the
    terminal handler [f] does. A request that is not authorized is dumped
    by the logging stage and refused with one 401, and [f] does not run;
    an authorized request reaches [f] once, after the dump and the line of
    the [id], and a panic of [f] is recovered, with a 500 when its value
    is an [error]. *)
Theorem chain_of_main_chain_guards_terminal
    (f : http.HandlerFunc) (req : Request) (w : World) :
  (exists w', call (chain_of_main_chain f) req w = Ok tt w') /\
  call (chain_of_main_chain f) req w
  = if authorized req then
      match f req {| stdout := stdout w ++ [Dump req;
                               Text ("tokenID: " +:+ mux.Vars req "id")];
                     response := response w |} with
      | Ok _ w1 => Ok tt w1
      | Panicked v w1 =>
          Ok tt (if implements_error v
                 then {| stdout := stdout w1;
                         response := response w1 ++ [EvWriteHeader 500] |}
                 else w1)
      end
    else
      Ok tt {| stdout := stdout w ++ [Dump req; Text (refusal req)];
               response := response w ++ [EvWriteHeader 401] |}.
Proof.
  assert (Hchain : call (chain_of_main_chain f) req w
                   = stage_LoggingFunc (stage_AuthFunc f) req w) by reflexivity.
  rewrite Hchain, LoggingFunc_runs_next.
  destruct (authorized_cases req) as
    [(He & -> & ->) | [(Hne & Hm & -> & ->) | (Hne & Hm & ->)]].
  - rewrite AuthFunc_missing by assumption. unfold refused, printed, wrote; cbn.
    rewrite <- !app_assoc. split; [eexists |]; reflexivity.
  - rewrite AuthFunc_mismatch by assumption. unfold refused, printed, wrote; cbn.
    rewrite <- !app_assoc. split; [eexists |]; reflexivity.
  - rewrite AuthFunc_match by assumption. unfold printed, wrote; cbn.
    rewrite <- !app_assoc. cbn.
    destruct (f req _) as [[] w1 | v w1]; split; try eexists; reflexivity.
Qed.

(** ** The programs compared *)

Lemma serve_request_without_method_matcher (req : Request) (w : World) :
  serve_request main_good "/account/{id}" req w
  = run_route main_good "/account/{id}" req w /\
  serve_request main_chain "/account/{id}" req w
  = run_route main_chain "/account/{id}" req w.
Proof. split; reflexivity. Qed.

Lemma serve_request_main_uses_chain (req : Request) (w : World) :
  serve_request main_uses_chain "/account/{id}" req w
  = if String.eqb (Method req) http.MethodGet
    then run_route main_uses_chain "/account/{id}" req w
    else Ok tt {| stdout := stdout w ++ [Text "server listening: 8000"];
                  response := response w ++ [EvWriteHeader 405] |}.
Proof.
  cbv [serve_request run_route main_uses_chain MWAuthFunc fmt.Println
       mbind mret Go_bind Go_ret].
  cbn [mux.find_route mux.Use mux.Methods mux.HandleFunc mux.Handle mux.NewRouter
       mux.routes mux.middlewares mux.template mux.handler mux.methods
       List.rev List.find app String.eqb Ascii.eqb Bool.eqb stdout response].
  unfold mux.serve_path_matched, mux.method_matches.
  cbn [mux.methods existsb]. rewrite orb_false_r.
  destruct (String.eqb (Method req) http.MethodGet); reflexivity.
Qed.

(** X5. On a request whose path matches [/account/{id}], [main_good] and
    [main_chain] answer with the terminal handler's single write when the
    Authorization header is non-empty and equal to the [id], and with a
    single [WriteHeader(401)] otherwise, whatever the method.
    [main_uses_chain], which [main] runs, does the same for a GET request;
    its route takes no other method, and for any other method the router
    answers with a single [WriteHeader(405)] and neither [MWAuthFunc] nor
    [SayHello] runs. *)
Theorem correct_programs_policy_on_account_route (req : Request) (w : World) :
  response_of (serve_request main_good "/account/{id}" req w)
  = Some (response w
          ++ [if authorized req then EvWrite account_json else EvWriteHeader 401]) /\
  response_of (serve_request main_chain "/account/{id}" req w)
  = Some (response w
          ++ [if authorized req then EvWrite greeting else EvWriteHeader 401]) /\
  serve_request main_uses_chain "/account/{id}" req w
  = (if String.eqb (Method req) "GET"
     then stage_MWAuthFunc mux.NewRouter SayHello req
            {| stdout := stdout w ++ [Text "server listening: 8000"];
               response := response w |}
     else Ok tt {| stdout := stdout w ++ [Text "server listening: 8000"];
                   response := response w ++ [EvWriteHeader 405] |}) /\
  response_of (serve_request main_uses_chain "/account/{id}" req w)
  = Some (response w
          ++ [if String.eqb (Method req) "GET"
              then (if authorized req then EvWrite greeting else EvWriteHeader 401)
              else EvWriteHeader 405]) /\
  serve_request main "/account/{id}" req w
  = serve_request main_uses_chain "/account/{id}" req w.
Proof.
  change main with main_uses_chain.
  destruct (serve_request_without_method_matcher req w) as [-> ->].
  rewrite serve_request_main_uses_chain.
  rewrite main_good_serves, main_chain_serves, main_uses_chain_serves,
    LoggingFunc_runs_next.
  change http.MethodGet with "GET".
  assert (Hpolicy :
    response_of (stage_AuthorizationMiddleware GetAccount req
                   (printed (Text "running...") w))
    = Some (response w
            ++ [if authorized req then EvWrite account_json else EvWriteHeader 401]) /\
    response_of
      match stage_AuthFunc SayHello req
              (printed (Dump req) (printed (Text "server listening: 8000") w)) with
      | Ok _ w1 => Ok tt w1
      | Panicked v w1 =>
          Ok tt (if implements_error v then wrote (EvWriteHeader 500) w1 else w1)
      end
    = Some (response w
            ++ [if authorized req then EvWrite greeting else EvWriteHeader 401]) /\
    response_of (stage_MWAuthFunc mux.NewRouter SayHello req
                   (printed (Text "server listening: 8000") w))
    = Some (response w
            ++ [if authorized req then EvWrite greeting else EvWriteHeader 401])).
  { destruct (authorized_cases req) as
      [(He & -> & _) | [(Hne & Hm & -> & _) | (Hne & Hm & ->)]].
    - rewrite AuthorizationMiddleware_missing, AuthFunc_missing,
        MWAuthFunc_missing by assumption.
      repeat split.
    - rewrite AuthorizationMiddleware_mismatch, AuthFunc_mismatch,
        MWAuthFunc_mismatch by assumption.
      repeat split.
    - rewrite AuthorizationMiddleware_match, AuthFunc_match,
        MWAuthFunc_match by assumption.
      repeat split. }
  destruct Hpolicy as (Hgood & Hchain & Huses).
  split; [exact Hgood |]. split; [exact Hchain |].
  split; [reflexivity |]. split; [| reflexivity].
  destruct (String.eqb (Method req) "GET"); [exact Huses | reflexivity].
Qed.

(** The same authorized request, sent with POST: [main_good] serves it,
    the router of [main_uses_chain] answers 405. *)
Example main_uses_chain_takes_GET_only :
  credential req_post = mux.Vars req_post "id" /\
  response_of (serve_request main_good "/account/{id}" req_post w0)
  = Some [EvWrite account_json] /\
  serve_request main_uses_chain "/account/{id}" req_post w0
  = Ok tt {| stdout := [Text "server listening: 8000"];
             response := [EvWriteHeader 405] |} /\
  serve_request main_uses_chain "/account/{id}" req_get w0
  = Ok tt {| stdout := [Text "server listening: 8000"; Text "tokenID: 7"];
             response := [EvWrite greeting] |}.
Proof. repeat split. Qed.

(** X6. [main_bad] answers every request on [/account/{id}] with the
    account payload, whatever its credential; [main_bad2] does so for
    every request with a non-empty Authorization header, whatever the
    [id], and refuses with 401 only when the header is empty. *)
Theorem bad_programs_serve_without_ownership (req : Request) (w : World) :
  response_of (run_route main_bad "/account/{id}" req w)
  = Some (response w ++ [EvWrite account_json]) /\
  response_of (run_route main_bad2 "/account/{id}" req w)
  = Some (response w
          ++ [if String.eqb (credential req) EmptyString
              then EvWriteHeader 401 else EvWrite account_json]).
Proof.
  rewrite main_bad_serves, main_bad2_serves. split; [reflexivity |].
  destruct (String.eqb_spec (credential req) EmptyString) as [He | Hne].
  - rewrite AuthorizationMiddleware_Bad_missing by assumption. reflexivity.
  - rewrite AuthorizationMiddleware_Bad_present by assumption. reflexivity.
Qed.

(** ** The stages compared *)

(** X7. What [AuthorizationMiddleware_Bad] does with a request does not
    depend on the value of a non-empty credential: two requests with the
    same [id] and any two non-empty Authorization headers are both handed
    to the wrapped handler, after the same output. *)
Theorem AuthorizationMiddleware_Bad_ignores_credential_value
    (req1 req2 : Request) (w : World) :
  credential req1 <> EmptyString ->
  credential req2 <> EmptyString ->
  mux.Vars req1 "id" = mux.Vars req2 "id" ->
  exists w', decides stage_AuthorizationMiddleware_Bad (Pass w') req1 w
             /\ decides stage_AuthorizationMiddleware_Bad (Pass w') req2 w.
Proof.
  intros H1 H2 Hid.
  exists (printed (Text ("tokenID: " +:+ mux.Vars req1 "id")) w).
  split; intros next; simpl; [| rewrite Hid];
    apply AuthorizationMiddleware_Bad_present; assumption.
Qed.

Lemma AuthorizationMiddleware_Bad_ignores_credential_value_witness :
  credential (request ["alice"] (Some "alice"))
  <> credential (request ["mallory"] (Some "alice")) /\
  exists w',
    decides stage_AuthorizationMiddleware_Bad (Pass w')
            (request ["alice"] (Some "alice")) w0
    /\ decides stage_AuthorizationMiddleware_Bad (Pass w')
               (request ["mallory"] (Some "alice")) w0.
Proof.
  split; [vm_compute; discriminate |].
  apply (AuthorizationMiddleware_Bad_ignores_credential_value
           (request ["alice"] (Some "alice"))
           (request ["mallory"] (Some "alice")) w0).
  - vm_compute. discriminate.
  - vm_compute. discriminate.
  - reflexivity.
Defined.

(** X8. The three correct stages are one stage: [MWAuthFunc] behaves as
    [AuthFunc] on every request, and [AuthFunc] behaves as
    [AuthorizationMiddleware] wrapped around a handler that prints the
    [id] before calling [next]. *)
Theorem correct_stages_are_one_stage
    (r : mux.Router) (next : http.HandlerFunc) (req : Request) (w : World) :
  stage_MWAuthFunc r next req w = stage_AuthFunc next req w /\
  stage_AuthFunc next req w
  = stage_AuthorizationMiddleware
      (fun req' => fmt.Println (Text ("tokenID: " +:+ mux.Vars req' "id"));;
                   next req')
      req w.
Proof.
  split; [reflexivity |].
  destruct (authorized_cases req) as
    [(He & _) | [(Hne & Hm & _) | (Hne & Hm & _)]].
  - rewrite AuthorizationMiddleware_missing by assumption.
    apply AuthFunc_missing; assumption.
  - rewrite AuthorizationMiddleware_mismatch by assumption.
    apply AuthFunc_mismatch; assumption.
  - rewrite AuthorizationMiddleware_match by assumption.
    apply AuthFunc_match; assumption.
Qed.

(** ** MWSayHello *)

(** X9. [MWSayHello] never refuses: it writes the greeting and calls
    [next]. Inside [MWAuthFunc] it is guarded, and a request that is not
    authorized gets a bare 401; outside [MWAuthFunc] it has written the
    greeting before the 401 of the refusal. For an authorized request the
    two orders hand the same world to [next]. *)
Theorem MWSayHello_writes_before_next
    (r : mux.Router) (next : http.HandlerFunc) (req : Request) (w : World) :
  let passed :=
    {| stdout := stdout w ++ [Text ("tokenID: " +:+ mux.Vars req "id")];
       response := response w ++ [EvWrite greeting] |} in
  stage_MWSayHello r next req w
  = next req {| stdout := stdout w; response := response w ++ [EvWrite greeting] |} /\
  stage_MWAuthFunc r (stage_MWSayHello r next) req w
  = (if authorized req then next req passed
     else Ok tt {| stdout := stdout w ++ [Text (refusal req)];
                   response := response w ++ [EvWriteHeader 401] |}) /\
  stage_MWSayHello r (stage_MWAuthFunc r next) req w
  = (if authorized req then next req passed
     else Ok tt {| stdout := stdout w ++ [Text (refusal req)];
                   response := response w ++ [EvWrite greeting; EvWriteHeader 401] |}).
Proof.
  intros passed.
  assert (Hhello : forall next' w1,
    stage_MWSayHello r next' req w1 = next' req (wrote (EvWrite greeting) w1))
    by reflexivity.
  split; [apply Hhello |]. rewrite (Hhello (stage_MWAuthFunc r next)).
  destruct (authorized_cases req) as
    [(He & -> & ->) | [(Hne & Hm & -> & ->) | (Hne & Hm & ->)]].
  - rewrite !MWAuthFunc_missing by assumption.
    unfold refused, printed, wrote; cbn. rewrite <- app_assoc. split; reflexivity.
  - rewrite !MWAuthFunc_mismatch by assumption.
    unfold refused, printed, wrote; cbn. rewrite <- app_assoc. split; reflexivity.
  - rewrite !MWAuthFunc_match by assumption. rewrite Hhello. split; reflexivity.
Qed.
